(** * DevOps-GPT client: session state machine and API clients

    A shallow embedding of the two source files of the front end:

    - [frontend/src/services/api.ts]: the axios instance, its response
      interceptor and the chat / repository / suggestions clients;
    - the [App] component (React hooks [activeTab], [messages], [inputText],
      [isLoading], [repoUrl] and the handlers bound to the UI).

    JavaScript strings are sequences of UTF-16 code units; [Date.now()] and
    [new Date()] are readings of a clock handed to the handlers; the console,
    the timer queue of [setTimeout] and the requests that reach the network
    are explicit components of the world the handlers run in. *)

From Stdlib Require Import List String Ascii NArith ZArith Bool Lia.
From Stdlib Require Import DecimalString DecimalPos DecimalN.
Import ListNotations.

Local Set Warnings "-register-all".
Local Open Scope N_scope.
Local Open Scope list_scope.

(* ================================================================== *)
(** ** JavaScript strings *)
(* ================================================================== *)

Module Js.

(** A string is its sequence of UTF-16 code units. *)
Definition jsstring := list N.

(** Literals of the source, which are all ASCII. *)
Definition lit (s : string) : jsstring :=
  map N_of_ascii (list_ascii_of_string s).

(** [WhiteSpace] and [LineTerminator] of ECMAScript, the code units that
    [String.prototype.trim] strips. *)
Definition isWhiteSpace (c : N) : bool :=
  ((9 <=? c) && (c <=? 13))
  || (c =? 32) || (c =? 160) || (c =? 5760)
  || ((8192 <=? c) && (c <=? 8202))
  || (c =? 8232) || (c =? 8233) || (c =? 8239) || (c =? 8287)
  || (c =? 12288) || (c =? 65279).

Fixpoint trimStart (s : jsstring) : jsstring :=
  match s with
  | [] => []
  | c :: r => if isWhiteSpace c then trimStart r else s
  end.

Definition trimEnd (s : jsstring) : jsstring := rev (trimStart (rev s)).

(** [s.trim()] *)
Definition trim (s : jsstring) : jsstring := trimEnd (trimStart s).

(** Truthiness of a string: every string but the empty one. *)
Definition truthy (s : jsstring) : bool :=
  match s with [] => false | _ :: _ => true end.

(** [n.toString()] for a non-negative integer below 10^21, which is every
    value [Date.now()] can return. *)
Definition toString (n : N) : jsstring :=
  lit (NilZero.string_of_uint (N.to_uint n)).

(** The test [!s.trim()] that guards the handlers and the buttons. *)
Definition blank (s : jsstring) : bool := negb (truthy (trim s)).

End Js.

Import Js.

(* ================================================================== *)
(** ** Data model *)
(* ================================================================== *)

Inductive Sender := user | bot.

(** [interface Message] of the component, [interface ChatMessage] of the
    API module: the same four fields.  [timestamp] is a [Date], kept as its
    number of milliseconds. *)
Record Message := mkMessage {
  id : jsstring;
  text : jsstring;
  sender : Sender;
  timestamp : N
}.

(** [interface Tab]; the icon is presentation only. *)
Record Tab := mkTab { tab_id : jsstring; tab_name : jsstring }.

Definition tabs : list Tab :=
  [ mkTab (lit "chat") (lit "Chat");
    mkTab (lit "suggestions") (lit "Suggestions");
    mkTab (lit "monitoring") (lit "Monitoring");
    mkTab (lit "testing") (lit "Testing");
    mkTab (lit "settings") (lit "Settings") ].

(** A browser [File]: its name and its bytes. *)
Record File := mkFile { file_name : jsstring; file_bytes : list N }.

(** Values a response body can hold.  Numbers carry an integer payload:
    no operation of the client inspects them. *)
Inductive Json :=
| JUndefined
| JNull
| JBool (b : bool)
| JNum (n : Z)
| JStr (s : jsstring)
| JArr (l : list Json)
| JObj (fields : list (jsstring * Json)).

(** [FormData]: the entries in the order they were appended. *)
Definition FormData := list (jsstring * File).

Definition FormData_new : FormData := [].

Definition FormData_append (fd : FormData) (name : jsstring) (f : File) : FormData :=
  fd ++ [(name, f)].

Inductive Method := GET | POST.

Inductive Body :=
| NoBody
| JsonBody (j : Json)
| MultipartBody (fd : FormData).

Definition Headers := list (jsstring * jsstring).

(** A request as the axios instance hands it to the network. *)
Record Request := mkRequest {
  req_method : Method;
  req_baseURL : jsstring;
  req_url : jsstring;
  req_headers : Headers;
  req_data : Body
}.

Record Response := mkResponse { resp_status : N; data : Json }.

(** The error axios rejects with: an optional HTTP status and a message. *)
Record AxiosError := mkAxiosError { err_status : option N; err_message : jsstring }.

(** What a client function can throw. *)
Inductive Exn :=
| Axios (e : AxiosError)
| TypeError.

Inductive LogLevel := LevelLog | LevelError.

Inductive LogArg :=
| LStr (s : jsstring)
| LErr (e : AxiosError).

(** One call of [console.log] or [console.error] with its arguments. *)
Record LogEntry := mkLog { level : LogLevel; args : list LogArg }.

(** The closures handed to [setTimeout].  The component has one: the
    simulated reply of [handleSendMessage], which captures no variable. *)
Inductive Callback := SimulatedReply.

Record Timer := mkTimer { callback : Callback; delay : N }.

(** The five [useState] cells of [App], and the environment its handlers
    and the API module act on: the console, the pending timers (oldest
    first) and the requests sent so far (oldest first). *)
Record World := mkWorld {
  activeTab : jsstring;
  messages : list Message;
  inputText : jsstring;
  isLoading : bool;
  repoUrl : jsstring;
  console : list LogEntry;
  timers : list Timer;
  network : list Request
}.

Definition setActiveTab (v : jsstring) (w : World) : World :=
  mkWorld v (messages w) (inputText w) (isLoading w) (repoUrl w)
          (console w) (timers w) (network w).

(** [setMessages(prev => f prev)] *)
Definition setMessages (f : list Message -> list Message) (w : World) : World :=
  mkWorld (activeTab w) (f (messages w)) (inputText w) (isLoading w) (repoUrl w)
          (console w) (timers w) (network w).

Definition setInputText (v : jsstring) (w : World) : World :=
  mkWorld (activeTab w) (messages w) v (isLoading w) (repoUrl w)
          (console w) (timers w) (network w).

Definition setIsLoading (v : bool) (w : World) : World :=
  mkWorld (activeTab w) (messages w) (inputText w) v (repoUrl w)
          (console w) (timers w) (network w).

Definition setRepoUrl (v : jsstring) (w : World) : World :=
  mkWorld (activeTab w) (messages w) (inputText w) (isLoading w) v
          (console w) (timers w) (network w).

Definition console_write (e : LogEntry) (w : World) : World :=
  mkWorld (activeTab w) (messages w) (inputText w) (isLoading w) (repoUrl w)
          (console w ++ [e]) (timers w) (network w).

Definition setTimeout (cb : Callback) (ms : N) (w : World) : World :=
  mkWorld (activeTab w) (messages w) (inputText w) (isLoading w) (repoUrl w)
          (console w) (timers w ++ [mkTimer cb ms]) (network w).

Definition setTimers (ts : list Timer) (w : World) : World :=
  mkWorld (activeTab w) (messages w) (inputText w) (isLoading w) (repoUrl w)
          (console w) ts (network w).

Definition network_send (r : Request) (w : World) : World :=
  mkWorld (activeTab w) (messages w) (inputText w) (isLoading w) (repoUrl w)
          (console w) (timers w) (network w ++ [r]).

(* ================================================================== *)
(** ** The API module [services/api.ts] *)
(* ================================================================== *)

(** The network and the remote service: the answer to a request, given the
    requests sent before it.  An answer is a response or the error axios
    rejects with (no connection, a status outside 2xx, ...). *)
Definition Adapter := list Request -> Request -> AxiosError + Response.

(** Computations of the module: they act on the world, and return a value or
    throw. *)
Definition Api (A : Type) : Type := World -> (Exn + A) * World.

Definition ret {A : Type} (a : A) : Api A := fun w => (inr a, w).

Definition throw {A : Type} (e : Exn) : Api A := fun w => (inl e, w).

(** [await]: a rejection leaves the function at once. *)
Definition bind {A B : Type} (c : Api A) (k : A -> Api B) : Api B :=
  fun w =>
    match c w with
    | (inl e, w') => (inl e, w')
    | (inr a, w') => k a w'
    end.

Declare Scope api_scope.
Delimit Scope api_scope with api.
Notation "x <- c ;; k" := (bind c (fun x => k))
  (at level 61, c at next level, right associativity) : api_scope.
Notation "c ;;; k" := (bind c (fun _ => k))
  (at level 61, right associativity) : api_scope.

Local Open Scope api_scope.

Fixpoint jseqb (a b : jsstring) : bool :=
  match a, b with
  | [], [] => true
  | x :: a', y :: b' => (x =? y) && jseqb a' b'
  | _, _ => false
  end.

(** Own property [k] of a parsed object, [undefined] when absent. *)
Fixpoint lookupField (k : jsstring) (fields : list (jsstring * Json)) : Json :=
  match fields with
  | [] => JUndefined
  | (k', v) :: r => if jseqb k k' then v else lookupField k r
  end.

(** [v.k] for the two property names the module reads, [script] and
    [config], which no primitive and no array carries. *)
Definition getProp (v : Json) (k : jsstring) : Api Json :=
  match v with
  | JUndefined | JNull => throw TypeError
  | JObj fields => ret (lookupField k fields)
  | _ => ret JUndefined
  end.

Definition hasHeader (k : jsstring) (h : Headers) : bool :=
  existsb (fun kv => jseqb k (fst kv)) h.

(** Headers of a call: those of its own config, then the instance defaults
    the config does not override. *)
Definition mergeHeaders (defaults config : Headers) : Headers :=
  config ++ filter (fun kv => negb (hasHeader (fst kv) config)) defaults.

Definition console_error (label : jsstring) (e : AxiosError) : Api unit :=
  fun w => (inr tt, console_write (mkLog LevelError [LStr label; LErr e]) w).

Definition API_BASE_URL : jsstring := lit "/api".

Module api.

Definition baseURL : jsstring := API_BASE_URL.

Definition headers : Headers := [(lit "Content-Type", lit "application/json")].

(** [api.interceptors.response.use(onFulfilled, onRejected)] *)
Definition onFulfilled (response : Response) : Api Response := ret response.

Definition onRejected (error : AxiosError) : Api Response :=
  console_error (lit "API Error:") error ;;;
  throw (Axios error).

(** One request through the instance: it is sent once, and its outcome goes
    through the response interceptor. *)
Definition request (net : Adapter) (m : Method) (url : jsstring) (body : Body)
    (config : Headers) : Api Response :=
  fun w =>
    let req := mkRequest m baseURL url (mergeHeaders headers config) body in
    let w' := network_send req w in
    match net (network w) req with
    | inr response => onFulfilled response w'
    | inl error => onRejected error w'
    end.

Definition post (net : Adapter) (url : jsstring) (body : Body) (config : Headers)
    : Api Response :=
  request net POST url body config.

Definition get (net : Adapter) (url : jsstring) : Api Response :=
  request net GET url NoBody [].

End api.

Module chatAPI.

Definition sendMessage (net : Adapter) (message : jsstring) : Api Json :=
  response <- api.post net (lit "/chat")
                (JsonBody (JObj [(lit "message", JStr message)])) [] ;;
  ret (data response).

Definition getHistory (net : Adapter) : Api Json :=
  response <- api.get net (lit "/chat/history") ;;
  ret (data response).

End chatAPI.

Module repositoryAPI.

Definition analyzeRepository (net : Adapter) (repoUrl : jsstring) : Api Json :=
  response <- api.post net (lit "/repository/analyze")
                (JsonBody (JObj [(lit "repository_url", JStr repoUrl)])) [] ;;
  ret (data response).

Definition uploadFiles (net : Adapter) (files : list File) : Api Json :=
  let formData :=
    fold_left (fun fd file => FormData_append fd (lit "files") file)
              files FormData_new in
  response <- api.post net (lit "/repository/upload") (MultipartBody formData)
                [(lit "Content-Type", lit "multipart/form-data")] ;;
  ret (data response).

End repositoryAPI.

Inductive TestFlavor := selenium | pytest | testng.

Inductive MonitoringFlavor := prometheus | grafana.

Definition testFlavorName (t : TestFlavor) : jsstring :=
  match t with
  | selenium => lit "selenium"
  | pytest => lit "pytest"
  | testng => lit "testng"
  end.

Definition monitoringFlavorName (t : MonitoringFlavor) : jsstring :=
  match t with
  | prometheus => lit "prometheus"
  | grafana => lit "grafana"
  end.

Module suggestionsAPI.

Definition getSuggestions (net : Adapter) : Api Json :=
  response <- api.get net (lit "/suggestions") ;;
  ret (data response).

Definition generateTestScripts (net : Adapter) (type : TestFlavor) : Api Json :=
  response <- api.post net (lit "/suggestions/generate-tests")
                (JsonBody (JObj [(lit "type", JStr (testFlavorName type))])) [] ;;
  getProp (data response) (lit "script").

Definition generateMonitoringConfig (net : Adapter) (type : MonitoringFlavor)
    : Api Json :=
  response <- api.post net (lit "/suggestions/generate-monitoring")
                (JsonBody (JObj [(lit "type", JStr (monitoringFlavorName type))])) [] ;;
  getProp (data response) (lit "config").

End suggestionsAPI.

(* ================================================================== *)
(** ** The [App] component *)
(* ================================================================== *)

Module App.

Definition greeting : jsstring :=
  lit "Hello! I'm your DevOps GPT assistant. I can help you analyze your codebase, suggest improvements, and answer questions about your infrastructure. Upload a repository or ask me anything!".

Definition demoReply : jsstring :=
  lit "I'm analyzing your request. This is a demo response - in the real app, this would connect to your LangChain backend.".

(** The first render, at time [date]: the initial values of the hooks, an
    empty console, no timer, nothing sent. *)
Definition init (date : N) : World :=
  mkWorld (lit "chat") [mkMessage (lit "1") greeting bot date] [] false []
          [] [] [].

Definition console_log (label arg : jsstring) (w : World) : World :=
  console_write (mkLog LevelLog [LStr label; LStr arg]) w.

(** [now] is the value of [Date.now()] and [date] that of [new Date()] in
    the call. *)
Definition handleSendMessage (now date : N) (w : World) : World :=
  if negb (truthy (trim (inputText w))) then w
  else
    let userMessage := mkMessage (toString now) (inputText w) user date in
    let w1 := setMessages (fun prev => prev ++ [userMessage]) w in
    let w2 := setInputText [] w1 in
    let w3 := setIsLoading true w2 in
    setTimeout SimulatedReply 1000 w3.

(** The body of a closure handed to [setTimeout], run when its timer
    elapses. *)
Definition runCallback (cb : Callback) (now date : N) (w : World) : World :=
  match cb with
  | SimulatedReply =>
      let botMessage := mkMessage (toString (now + 1)) demoReply bot date in
      let w1 := setMessages (fun prev => prev ++ [botMessage]) w in
      setIsLoading false w1
  end.

(** The result carries whether [e.preventDefault()] was called. *)
Definition handleKeyPress (key : jsstring) (shiftKey : bool) (now date : N)
    (w : World) : bool * World :=
  if jseqb key (lit "Enter") && negb shiftKey
  then (true, handleSendMessage now date w)
  else (false, w).

(** [files] is [e.target.files], [None] when it is [null]. *)
Definition handleFileUpload (files : option (list File)) (w : World) : World :=
  let file := match files with
              | Some (f :: _) => Some f
              | _ => None
              end in
  match file with
  | Some f => console_log (lit "File uploaded:") (file_name f) w
  | None => w
  end.

Definition handleRepoSubmit (now date : N) (w : World) : World :=
  if truthy (trim (repoUrl w)) then
    let w1 := console_log (lit "Repository URL:") (repoUrl w) w in
    setMessages
      (fun prev =>
         prev ++ [mkMessage (toString now)
                            (lit "Analyzing repository: " ++ repoUrl w)
                            bot date])
      w1
  else w.

(** *** What the rendered tree lets through *)

(** The chat pane, with its text area and its send button, is rendered only
    on the chat tab. *)
Definition chatVisible (w : World) : bool := jseqb (activeTab w) (lit "chat").

(** [disabled] of the send button and of the connect button. *)
Definition sendDisabled (w : World) : bool :=
  negb (truthy (trim (inputText w))) || isLoading w.

Definition connectDisabled (w : World) : bool :=
  negb (truthy (trim (repoUrl w))).

Inductive Event :=
| ClickTab (tab : Tab)
| ChangeRepoUrl (value : jsstring)
| ClickConnect
| ChangeFiles (files : option (list File))
| ChangeInputText (value : jsstring)
| KeyPress (key : jsstring) (shiftKey : bool)
| ClickSend
| Timeout.

(** The oldest pending timer elapses (all delays are equal, so timers
    elapse in the order they were set). *)
Definition fireTimer (now date : N) (w : World) : World :=
  match timers w with
  | [] => w
  | t :: rest => runCallback (callback t) now date (setTimers rest w)
  end.

(** One turn of the event loop: the handler bound to the event runs on the
    hooks of the last render.  A disabled button and an element that is not
    rendered deliver nothing. *)
Definition dispatch (now date : N) (e : Event) (w : World) : World :=
  match e with
  | ClickTab tab => setActiveTab (tab_id tab) w
  | ChangeRepoUrl value => setRepoUrl value w
  | ClickConnect =>
      if connectDisabled w then w else handleRepoSubmit now date w
  | ChangeFiles files => handleFileUpload files w
  | ChangeInputText value =>
      if chatVisible w then setInputText value w else w
  | KeyPress key shiftKey =>
      if chatVisible w then snd (handleKeyPress key shiftKey now date w) else w
  | ClickSend =>
      if chatVisible w && negb (sendDisabled w)
      then handleSendMessage now date w
      else w
  | Timeout => fireTimer now date w
  end.

(** An event with the clock readings of its turn. *)
Definition Turn : Type := N * N * Event.

Definition run (trace : list Turn) (w : World) : World :=
  fold_left (fun w t => dispatch (fst (fst t)) (snd (fst t)) (snd t) w) trace w.

(** The worlds a session can be in. *)
Definition reachable (w : World) : Prop :=
  exists date trace, w = run trace (init date).

(** A chat submission fires: a user message is appended and a reply
    scheduled. *)
Definition chatSubmissionFires (w w' : World) : Prop :=
  exists m, messages w' = messages w ++ [m] /\ sender m = user
            /\ List.length (timers w') = S (List.length (timers w)).

End App.

(** ** Requests of the clients *)

Definition jsonHeaders : Headers := [(lit "Content-Type", lit "application/json")].

Definition multipartHeaders : Headers :=
  [(lit "Content-Type", lit "multipart/form-data")].

(** The calls a caller can make on the three clients. *)
Inductive Call :=
| CallSendMessage (message : jsstring)
| CallGetHistory
| CallAnalyzeRepository (repoUrl : jsstring)
| CallUploadFiles (files : list File)
| CallGetSuggestions
| CallGenerateTestScripts (type : TestFlavor)
| CallGenerateMonitoringConfig (type : MonitoringFlavor).

Definition perform (net : Adapter) (c : Call) : Api Json :=
  match c with
  | CallSendMessage message => chatAPI.sendMessage net message
  | CallGetHistory => chatAPI.getHistory net
  | CallAnalyzeRepository repoUrl => repositoryAPI.analyzeRepository net repoUrl
  | CallUploadFiles files => repositoryAPI.uploadFiles net files
  | CallGetSuggestions => suggestionsAPI.getSuggestions net
  | CallGenerateTestScripts type => suggestionsAPI.generateTestScripts net type
  | CallGenerateMonitoringConfig type =>
      suggestionsAPI.generateMonitoringConfig net type
  end.

(** The request each call puts on the network. *)
Definition requestOf (c : Call) : Request :=
  match c with
  | CallSendMessage message =>
      mkRequest POST (lit "/api") (lit "/chat") jsonHeaders
        (JsonBody (JObj [(lit "message", JStr message)]))
  | CallGetHistory =>
      mkRequest GET (lit "/api") (lit "/chat/history") jsonHeaders NoBody
  | CallAnalyzeRepository repoUrl =>
      mkRequest POST (lit "/api") (lit "/repository/analyze") jsonHeaders
        (JsonBody (JObj [(lit "repository_url", JStr repoUrl)]))
  | CallUploadFiles files =>
      mkRequest POST (lit "/api") (lit "/repository/upload") multipartHeaders
        (MultipartBody (map (fun f => (lit "files", f)) files))
  | CallGetSuggestions =>
      mkRequest GET (lit "/api") (lit "/suggestions") jsonHeaders NoBody
  | CallGenerateTestScripts type =>
      mkRequest POST (lit "/api") (lit "/suggestions/generate-tests") jsonHeaders
        (JsonBody (JObj [(lit "type", JStr (testFlavorName type))]))
  | CallGenerateMonitoringConfig type =>
      mkRequest POST (lit "/api") (lit "/suggestions/generate-monitoring")
        jsonHeaders
        (JsonBody (JObj [(lit "type", JStr (monitoringFlavorName type))]))
  end.

(** The request the instance builds from the arguments of a call. *)
Definition built (m : Method) (url : jsstring) (body : Body) (config : Headers)
    : Request :=
  mkRequest m api.baseURL url (mergeHeaders api.headers config) body.

(** The entry [console.error('API Error:', e)] leaves on the console. *)
Definition apiErrorEntry (e : AxiosError) : LogEntry :=
  mkLog LevelError [LStr (lit "API Error:"); LErr e].

(* ================================================================== *)
(** ** Observations on calls and sessions *)
(* ================================================================== *)

(** The property of the response body a client function returns, for the
    two that do not return the body itself: [response.data.script] and
    [response.data.config]. *)
Definition artifactField (c : Call) : option jsstring :=
  match c with
  | CallGenerateTestScripts _ => Some (lit "script")
  | CallGenerateMonitoringConfig _ => Some (lit "config")
  | _ => None
  end.

(** What a client function does with the response it awaited. *)
Definition afterResponse (c : Call) (r : Response) : Api Json :=
  match artifactField c with
  | None => ret (data r)
  | Some k => getProp (data r) k
  end.

Definition isUserMessage (m : Message) : bool :=
  match sender m with user => true | bot => false end.

Definition isDemoReply (m : Message) : bool :=
  match sender m with
  | bot => jseqb (text m) App.demoReply
  | user => false
  end.

Definition countMessages (p : Message -> bool) (w : World) : nat :=
  List.length (filter p (messages w)).

(** Where a message of the transcript can come from: a non-blank draft
    sent by the user, the greeting, the simulated reply, or the
    announcement of a non-blank repository URL. *)
Definition messageOrigin (m : Message) : Prop :=
  match sender m with
  | user => blank (text m) = false
  | bot =>
      text m = App.greeting
      \/ text m = App.demoReply
      \/ exists url, blank url = false
                     /\ text m = lit "Analyzing repository: " ++ url
  end.

(** Turns in which the oldest timer elapses, one per pair of clock
    readings. *)
Definition timeouts (clocks : list (N * N)) : list App.Turn :=
  map (fun c => (fst c, snd c, App.Timeout)) clocks.

(** The tab buttons on screen are those of [tabs]: a click on a tab is a
    click on one of them. *)
Definition clicksOnScreen (trace : list App.Turn) : Prop :=
  Forall (fun t => match snd t with
                   | App.ClickTab tab => In tab tabs
                   | _ => True
                   end) trace.

(** [Date.now()] of every turn is more than one millisecond after that
    of the turn before, [last]. *)
Fixpoint spaced (last : N) (trace : list App.Turn) : bool :=
  match trace with
  | [] => true
  | (now, _, _) :: rest => (last + 1 <? now) && spaced now rest
  end.

(** The ids of the transcript are distinct and are notations of numbers up
    to [bound]. *)
Definition idsBelow (bound : N) (ms : list Message) : Prop :=
  NoDup (map id ms)
  /\ Forall (fun m => exists k, id m = toString k /\ k <= bound) ms.

(** The value of the last change of the URL field in a trace, [start]
    when there is none. *)
Definition lastTypedUrl (trace : list App.Turn) (start : jsstring) : jsstring :=
  fold_left (fun acc t => match snd t with
                          | App.ChangeRepoUrl value => value
                          | _ => acc
                          end) trace start.

(** *** The rendered tree *)

Module View.

(** The five conditional blocks of [<main>]. *)
Inductive Pane :=
| ChatPane
| SuggestionsPane
| MonitoringPane
| TestingPane
| SettingsPane.

Definition panes : list Pane :=
  [ChatPane; SuggestionsPane; MonitoringPane; TestingPane; SettingsPane].

(** The literal in the condition [activeTab === '...'] of a block. *)
Definition paneTab (p : Pane) : jsstring :=
  match p with
  | ChatPane => lit "chat"
  | SuggestionsPane => lit "suggestions"
  | MonitoringPane => lit "monitoring"
  | TestingPane => lit "testing"
  | SettingsPane => lit "settings"
  end.

(** The blocks that are rendered, in document order. *)
Definition renderedPanes (w : World) : list Pane :=
  filter (fun p => jseqb (activeTab w) (paneTab p)) panes.

(** The buttons of the navigation that carry the class [active]. *)
Definition activeButtons (w : World) : list Tab :=
  filter (fun tab => jseqb (activeTab w) (tab_id tab)) tabs.

End View.

(* ================================================================== *)
(** ** Sample sessions *)
(* ================================================================== *)

Module Samples.

Definition error500 : AxiosError :=
  mkAxiosError (Some 500) (lit "Request failed with status code 500").

(** A service that is down. *)
Definition failingNet : Adapter := fun _ _ => inl error500.

Definition analysis : Json :=
  JObj [(lit "repository_url", JStr (lit "upload"));
        (lit "analysis",
         JObj [(lit "dockerfile_suggestions", JArr [JStr (lit "pin the base image")]);
               (lit "kubernetes_suggestions", JArr []);
               (lit "cicd_suggestions", JArr []);
               (lit "monitoring_suggestions", JArr [])])].

(** A service that answers every request with the same analysis. *)
Definition okNet : Adapter := fun _ _ => inr (mkResponse 200 analysis).

Definition twoFiles : list File :=
  [mkFile (lit "app.zip") [80; 75; 3; 4];
   mkFile (lit "infra.tar.gz") [31; 139; 8]].

Definition enter : App.Event := App.KeyPress (lit "Enter") false.

(** A fresh session in which [hello] has been typed. *)
Definition helloTyped : World :=
  App.run [(10, 10, App.ChangeInputText (lit "hello"))] (App.init 0).

(** A fresh session whose drafts hold white space only. *)
Definition blankDrafts : World :=
  App.run [(10, 10, App.ChangeInputText [32; 9; 10; 160]);
           (20, 20, App.ChangeRepoUrl [32; 32])] (App.init 0).

Definition repoTyped : World :=
  App.run [(10, 10, App.ChangeRepoUrl (lit "https://github.com/org/repo"))]
          (App.init 0).

(** [a] is sent with the Enter key, then [b] is typed before the simulated
    reply arrives. *)
Definition secondDraftWhileLoading : World :=
  App.run [(10, 10, App.ChangeInputText (lit "a"));
           (20, 20, enter);
           (30, 30, App.ChangeInputText (lit "b"))] (App.init 0).

End Samples.

Module MoreSamples.

(** A service whose answers are objects with a [script] after an unrelated
    property. *)
Definition scriptNet : Adapter :=
  fun _ _ =>
    inr (mkResponse 200
           (JObj [(lit "language", JStr (lit "python"));
                  (lit "script", JStr (lit "def test_health(): pass"))])).

(** A service that answers every request with [null]. *)
Definition nullNet : Adapter := fun _ _ => inr (mkResponse 200 JNull).

(** [a] is sent with Enter, then [b] with Enter before the first reply. *)
Definition twoSubmissions : list App.Turn :=
  [(10, 10, App.ChangeInputText (lit "a"));
   (20, 20, Samples.enter);
   (30, 30, App.ChangeInputText (lit "b"));
   (40, 41, Samples.enter)].

(** A visit of the monitoring tab and back, a repository announcement, a
    chat submission by the button and its reply. *)
Definition tour : list App.Turn :=
  [(10, 10, App.ClickTab (mkTab (lit "monitoring") (lit "Monitoring")));
   (20, 20, App.ChangeRepoUrl (lit "https://github.com/org/repo"));
   (30, 30, App.ClickConnect);
   (40, 40, App.ClickTab (mkTab (lit "chat") (lit "Chat")));
   (50, 50, App.ChangeInputText (lit "hello"));
   (60, 61, App.ClickSend);
   (1060, 1060, App.Timeout)].

End MoreSamples.

(* ================================================================== *)
(** ** Facts on [trim] *)
(* ================================================================== *)

Section TrimFacts.

Lemma trimStart_nil_iff (s : jsstring) :
  trimStart s = [] <-> forallb isWhiteSpace s = true.
Proof.
  induction s as [|c r IH]; simpl.
  - tauto.
  - destruct (isWhiteSpace c); simpl.
    + exact IH.
    + split; discriminate.
Qed.

Lemma trimStart_head (s : jsstring) (c : N) (r : jsstring) :
  trimStart s = c :: r -> isWhiteSpace c = false.
Proof.
  induction s as [|d s IH]; simpl; [discriminate|].
  destruct (isWhiteSpace d) eqn:Hd; [exact IH|].
  intros H. injection H as -> _. exact Hd.
Qed.

(** A string is blank exactly when all its code units are white space. *)
Lemma blank_iff_all_white (s : jsstring) :
  blank s = true <-> forallb isWhiteSpace s = true.
Proof.
  unfold blank, trim, trimEnd.
  split.
  - intros H.
    destruct (trimStart s) as [|c r] eqn:Hs.
    + apply trimStart_nil_iff. exact Hs.
    + exfalso.
      pose proof (trimStart_head _ _ _ Hs) as Hc.
      destruct (rev (trimStart (rev (c :: r)))) as [|x y] eqn:Hr; [|discriminate H].
      apply (f_equal (@rev N)) in Hr. rewrite rev_involutive in Hr. simpl in Hr.
      apply trimStart_nil_iff in Hr.
      rewrite forallb_app in Hr. simpl in Hr. rewrite Hc in Hr.
      rewrite andb_false_r in Hr. discriminate Hr.
  - intros H. apply trimStart_nil_iff in H. rewrite H. reflexivity.
Qed.

Lemma blank_nil : blank [] = true.
Proof. reflexivity. Qed.

End TrimFacts.

Section JsStringFacts.

Lemma jseqb_eq (a b : jsstring) : jseqb a b = true <-> a = b.
Proof.
  revert b. induction a as [|x a IH]; intros [|y b]; simpl; try (split; (reflexivity || discriminate)).
  rewrite andb_true_iff, N.eqb_eq, IH.
  split; [intros [-> ->]; reflexivity | intros H; injection H; auto].
Qed.

End JsStringFacts.

(* ================================================================== *)
(** ** The API module: requests, errors *)
(* ================================================================== *)

Section ApiFacts.

Variable net : Adapter.

Lemma bind_rejected {A B : Type} (c : Api A) (k : A -> Api B)
    (w w' : World) (e : Exn) :
  c w = (inl e, w') -> bind c k w = (inl e, w').
Proof. intros H. unfold bind. rewrite H. reflexivity. Qed.

Lemma bind_fulfilled {A B : Type} (c : Api A) (k : A -> Api B)
    (w w' : World) (a : A) :
  c w = (inr a, w') -> bind c k w = k a w'.
Proof. intros H. unfold bind. rewrite H. reflexivity. Qed.

Lemma request_rejected (m : Method) (url : jsstring) (body : Body)
    (config : Headers) (w : World) (e : AxiosError) :
  net (network w) (built m url body config) = inl e ->
  api.request net m url body config w
  = (inl (Axios e),
     console_write (apiErrorEntry e) (network_send (built m url body config) w)).
Proof.
  intros H. unfold api.request. fold (built m url body config).
  rewrite H. reflexivity.
Qed.

Lemma request_fulfilled (m : Method) (url : jsstring) (body : Body)
    (config : Headers) (w : World) (r : Response) :
  net (network w) (built m url body config) = inr r ->
  api.request net m url body config w
  = (inr r, network_send (built m url body config) w).
Proof.
  intros H. unfold api.request. fold (built m url body config).
  rewrite H. reflexivity.
Qed.

(** [forEach] with [append] lays the files out in their order, after what
    the form already holds. *)
Lemma forEach_append (name : jsstring) (files : list File) (fd : FormData) :
  fold_left (fun acc file => FormData_append acc name file) files fd
  = fd ++ map (fun f => (name, f)) files.
Proof.
  revert fd. induction files as [|f files IH]; intros fd; simpl.
  - symmetry. apply app_nil_r.
  - rewrite IH. unfold FormData_append. rewrite <- app_assoc. reflexivity.
Qed.

(** Every client function is one request through the instance followed by
    a continuation on the response, which leaves the world as it is. *)
Lemma perform_shape (c : Call) :
  exists m url body config (k : Response -> Api Json),
    built m url body config = requestOf c
    /\ perform net c = bind (api.request net m url body config) k
    /\ forall r w, snd (k r w) = w.
Proof.
  destruct c as [message| |repoUrl|files| |type|type].
  - do 5 eexists. split; [|split; [reflexivity|]]; reflexivity.
  - do 5 eexists. split; [|split; [reflexivity|]]; reflexivity.
  - do 5 eexists. split; [|split; [reflexivity|]]; reflexivity.
  - exists POST, (lit "/repository/upload"),
      (MultipartBody (map (fun f => (lit "files", f)) files)),
      multipartHeaders, (fun response => ret (data response)).
    split; [reflexivity|split; [|reflexivity]].
    simpl perform. unfold repositoryAPI.uploadFiles.
    rewrite forEach_append. reflexivity.
  - do 5 eexists. split; [|split; [reflexivity|]]; reflexivity.
  - do 5 eexists. split; [|split; [reflexivity|]]; [reflexivity|].
    intros r w. simpl. destruct (data r); reflexivity.
  - do 5 eexists. split; [|split; [reflexivity|]]; [reflexivity|].
    intros r w. simpl. destruct (data r); reflexivity.
Qed.

(** A call sends its request, once, whatever the answer. *)
Lemma perform_sends_once (c : Call) (w : World) :
  network (snd (perform net c w)) = network w ++ [requestOf c].
Proof.
  destruct (perform_shape c) as (m & url & body & config & k & Hreq & Hp & Hk).
  rewrite Hp. unfold bind.
  destruct (net (network w) (built m url body config)) as [e|r] eqn:Hn.
  - rewrite (request_rejected _ _ _ _ _ _ Hn). simpl. rewrite Hreq. reflexivity.
  - rewrite (request_fulfilled _ _ _ _ _ _ Hn). rewrite Hk.
    simpl. rewrite Hreq. reflexivity.
Qed.

(** C7. Whatever client function is called and whatever error the
    transport answers its request with, the call sends that one request,
    the response interceptor writes one [console.error] entry for the error,
    and the caller gets that same error: nothing is retried, caught or
    rewritten on the way. *)
Theorem transport_error_logged_once_and_rethrown
    (c : Call) (w : World) (e : AxiosError) :
  net (network w) (requestOf c) = inl e ->
  perform net c w
  = (inl (Axios e),
     console_write (apiErrorEntry e) (network_send (requestOf c) w)).
Proof.
  intros H.
  destruct (perform_shape c) as (m & url & body & config & k & Hreq & Hp & _).
  rewrite Hp, <- Hreq. apply bind_rejected. apply request_rejected.
  rewrite Hreq. exact H.
Qed.

(** C8. [uploadFiles] puts every file in the form under the field name
    [files], in the order of its argument, posts the form as multipart to
    [/repository/upload] and returns the body of the response. *)
Theorem uploadFiles_posts_files_in_order
    (files : list File) (w : World) (r : Response) :
  let form := map (fun f => (lit "files", f)) files in
  let req := mkRequest POST (lit "/api") (lit "/repository/upload")
               multipartHeaders (MultipartBody form) in
  net (network w) req = inr r ->
  repositoryAPI.uploadFiles net files w = (inr (data r), network_send req w)
  /\ map snd form = files
  /\ Forall (fun entry => fst entry = lit "files") form.
Proof.
  intros form req H. split; [|split].
  - unfold repositoryAPI.uploadFiles. rewrite forEach_append.
    change (FormData_new ++ map (fun f => (lit "files", f)) files) with form.
    unfold api.post.
    rewrite (bind_fulfilled _ _ _ _ _
               (request_fulfilled POST (lit "/repository/upload")
                  (MultipartBody form) multipartHeaders w r H)).
    reflexivity.
  - unfold form. rewrite map_map. simpl. apply map_id.
  - unfold form. apply Forall_forall. intros entry Hin.
    apply in_map_iff in Hin. destruct Hin as [f [<- _]]. reflexivity.
Qed.

End ApiFacts.

(** C7 at a service that is down: [sendMessage] throws the error of the
    transport, logged once. *)
Lemma transport_error_witness :
  perform Samples.failingNet (CallSendMessage (lit "hi")) (App.init 0)
  = (inl (Axios Samples.error500),
     console_write (apiErrorEntry Samples.error500)
       (network_send (requestOf (CallSendMessage (lit "hi"))) (App.init 0))).
Proof.
  apply (transport_error_logged_once_and_rethrown Samples.failingNet).
  reflexivity.
Defined.

(** C8 at two files. *)
Lemma uploadFiles_witness :
  let form := map (fun f => (lit "files", f)) Samples.twoFiles in
  let req := mkRequest POST (lit "/api") (lit "/repository/upload")
               multipartHeaders (MultipartBody form) in
  repositoryAPI.uploadFiles Samples.okNet Samples.twoFiles (App.init 0)
  = (inr Samples.analysis, network_send req (App.init 0))
  /\ map snd form = Samples.twoFiles
  /\ Forall (fun entry => fst entry = lit "files") form.
Proof.
  apply (uploadFiles_posts_files_in_order Samples.okNet Samples.twoFiles
           (App.init 0) (mkResponse 200 Samples.analysis)).
  reflexivity.
Defined.

(* ================================================================== *)
(** ** The component: what its handlers leave alone *)
(* ================================================================== *)

Section AppFrame.

Import App.

Lemma run_app (t1 t2 : list Turn) (w : World) :
  run (t1 ++ t2) w = run t2 (run t1 w).
Proof. unfold run. apply fold_left_app. Qed.

Lemma handleSendMessage_blank (now date : N) (w : World) :
  blank (inputText w) = true -> handleSendMessage now date w = w.
Proof.
  unfold blank, handleSendMessage. intros H. rewrite H. reflexivity.
Qed.

Lemma handleSendMessage_fires (now date : N) (w : World) :
  blank (inputText w) = false ->
  handleSendMessage now date w
  = setTimeout SimulatedReply 1000
      (setIsLoading true
         (setInputText []
            (setMessages
               (fun prev => prev ++ [mkMessage (toString now) (inputText w) user date])
               w))).
Proof.
  unfold blank, handleSendMessage. intros H. rewrite H. reflexivity.
Qed.

Lemma handleRepoSubmit_blank (now date : N) (w : World) :
  blank (repoUrl w) = true -> handleRepoSubmit now date w = w.
Proof.
  unfold blank, handleRepoSubmit. intros H.
  apply negb_true_iff in H. rewrite H. reflexivity.
Qed.

Lemma handleRepoSubmit_fires (now date : N) (w : World) :
  blank (repoUrl w) = false ->
  handleRepoSubmit now date w
  = setMessages
      (fun prev =>
         prev ++ [mkMessage (toString now)
                            (lit "Analyzing repository: " ++ repoUrl w) bot date])
      (console_log (lit "Repository URL:") (repoUrl w) w).
Proof.
  unfold blank, handleRepoSubmit. intros H.
  apply negb_false_iff in H. rewrite H. reflexivity.
Qed.

(** No handler of the component touches the network. *)
Lemma dispatch_network (now date : N) (e : Event) (w : World) :
  network (dispatch now date e w) = network w.
Proof.
  destruct e as [tab|v| |files|v|key shift| | ]; simpl.
  - reflexivity.
  - reflexivity.
  - destruct (connectDisabled w); [reflexivity|].
    unfold handleRepoSubmit. destruct (truthy (trim (repoUrl w))); reflexivity.
  - unfold handleFileUpload. destruct files as [[|f r]|]; reflexivity.
  - destruct (chatVisible w); reflexivity.
  - destruct (chatVisible w); [|reflexivity].
    unfold handleKeyPress, handleSendMessage.
    destruct (jseqb key (lit "Enter") && negb shift); [|reflexivity].
    simpl. destruct (negb (truthy (trim (inputText w)))); reflexivity.
  - destruct (chatVisible w && negb (sendDisabled w)); [|reflexivity].
    unfold handleSendMessage.
    destruct (negb (truthy (trim (inputText w)))); reflexivity.
  - unfold fireTimer. destruct (timers w) as [|[[] d] r]; reflexivity.
Qed.

Lemma run_network (trace : list Turn) (w : World) :
  network (run trace w) = network w.
Proof.
  revert w. induction trace as [|[[now date] e] trace IH]; intros w.
  - reflexivity.
  - change (run (((now, date), e) :: trace) w)
      with (run trace (dispatch now date e w)).
    rewrite IH. apply dispatch_network.
Qed.

(** In no world a session can reach has the component sent a request. *)
Lemma reachable_network (w : World) : reachable w -> network w = [].
Proof.
  intros (date & trace & ->). rewrite run_network. reflexivity.
Qed.

(** The transcript only grows. *)
Lemma dispatch_transcript (now date : N) (e : Event) (w : World) :
  exists more, messages (dispatch now date e w) = messages w ++ more.
Proof.
  destruct e as [tab|v| |files|v|key shift| | ]; simpl.
  - exists []. symmetry. apply app_nil_r.
  - exists []. symmetry. apply app_nil_r.
  - destruct (connectDisabled w); [exists []; symmetry; apply app_nil_r|].
    unfold handleRepoSubmit. destruct (truthy (trim (repoUrl w))).
    + eexists. reflexivity.
    + exists []. symmetry. apply app_nil_r.
  - unfold handleFileUpload.
    destruct files as [[|f r]|]; exists []; symmetry; apply app_nil_r.
  - destruct (chatVisible w); exists []; symmetry; apply app_nil_r.
  - destruct (chatVisible w); [|exists []; symmetry; apply app_nil_r].
    unfold handleKeyPress, handleSendMessage.
    destruct (jseqb key (lit "Enter") && negb shift);
      [|exists []; symmetry; apply app_nil_r].
    simpl. destruct (negb (truthy (trim (inputText w)))).
    + exists []. symmetry. apply app_nil_r.
    + eexists. reflexivity.
  - destruct (chatVisible w && negb (sendDisabled w));
      [|exists []; symmetry; apply app_nil_r].
    unfold handleSendMessage.
    destruct (negb (truthy (trim (inputText w)))).
    + exists []. symmetry. apply app_nil_r.
    + eexists. reflexivity.
  - unfold fireTimer. destruct (timers w) as [|[[] d] r].
    + exists []. symmetry. apply app_nil_r.
    + eexists. reflexivity.
Qed.

Lemma run_transcript (trace : list Turn) (w : World) :
  exists more, messages (run trace w) = messages w ++ more.
Proof.
  revert w. induction trace as [|[[now date] e] trace IH]; intros w.
  - exists []. symmetry. apply app_nil_r.
  - change (run (((now, date), e) :: trace) w)
      with (run trace (dispatch now date e w)).
    destruct (IH (dispatch now date e w)) as [m2 H2].
    destruct (dispatch_transcript now date e w) as [m1 H1].
    exists (m1 ++ m2). rewrite H2, H1. symmetry. apply app_assoc.
Qed.

Lemma no_self_extension {A : Type} (l : list A) (x : A) : l <> l ++ [x].
Proof.
  intros H. apply (f_equal (@List.length A)) in H.
  rewrite length_app in H. simpl in H. lia.
Qed.

(** The send button submits only a non-blank draft, and only when no reply
    is awaited. *)
Lemma click_send_guarded (now date : N) (w : World) :
  chatSubmissionFires w (dispatch now date ClickSend w) ->
  blank (inputText w) = false /\ isLoading w = false.
Proof.
  simpl. unfold sendDisabled, blank.
  destruct (chatVisible w); simpl;
    destruct (negb (truthy (trim (inputText w)))); simpl;
    try destruct (isLoading w); simpl;
    try (intros (m & Hm & _); exfalso; exact (no_self_extension _ _ Hm)).
  intros _. split; reflexivity.
Qed.

End AppFrame.

(* ================================================================== *)
(** ** The component: the session state machine *)
(* ================================================================== *)

Section Session.

Import App.

(** C1, on the code: the Enter key bypasses the guard of the send button.
    In a session where [a] was sent and [b] typed before the simulated
    reply, [isLoading] is true, yet Enter submits [b]: a second user message
    is appended and a second reply scheduled.  When the first reply then
    arrives, [isLoading] falls back to false while a reply is still
    awaited. *)
Theorem enter_key_submits_while_loading :
  let w := Samples.secondDraftWhileLoading in
  let w' := dispatch 40 40 Samples.enter w in
  let w'' := dispatch 1020 1020 Timeout w' in
  reachable w
  /\ isLoading w = true
  /\ chatSubmissionFires w w'
  /\ map text (messages w') = [greeting; lit "a"; lit "b"]
  /\ List.length (timers w') = 2%nat
  /\ isLoading w'' = false
  /\ List.length (timers w'') = 1%nat.
Proof.
  split; [|split; [|split; [|repeat split]]].
  - exists 0. eexists. reflexivity.
  - reflexivity.
  - eexists. split; [|split]; reflexivity.
Qed.

(** C2, as the spec states it, fails: submitting a repository URL puts no
    request on the network, whereas [analyzeRepository] would put one. *)
Lemma repo_submit_sends_no_request :
  let w := Samples.repoTyped in
  blank (repoUrl w) = false
  /\ network (handleRepoSubmit 20 20 w)
     <> network w ++ [requestOf (CallAnalyzeRepository (repoUrl w))].
Proof.
  split; [reflexivity|]. vm_compute. discriminate.
Qed.

(** C2, amended.  With a non-blank URL draft the submission logs the URL
    and appends one bot message, [Analyzing repository: ] followed by the
    URL; it sends no request and changes nothing else.  With a blank draft
    it does nothing. *)
Theorem repo_submit_announces_target (now date : N) (w : World) :
  (blank (repoUrl w) = false ->
   handleRepoSubmit now date w
   = mkWorld (activeTab w)
       (messages w ++ [mkMessage (toString now)
                                 (lit "Analyzing repository: " ++ repoUrl w)
                                 bot date])
       (inputText w) (isLoading w) (repoUrl w)
       (console w ++ [mkLog LevelLog [LStr (lit "Repository URL:");
                                      LStr (repoUrl w)]])
       (timers w) (network w))
  /\ (blank (repoUrl w) = true -> handleRepoSubmit now date w = w).
Proof.
  split; intros H.
  - rewrite (handleRepoSubmit_fires _ _ _ H). reflexivity.
  - apply handleRepoSubmit_blank. exact H.
Qed.

(** C3, as the spec states it, fails: selecting two files puts no request
    on the network, whereas [uploadFiles] would put one. *)
Lemma file_selection_uploads_nothing :
  let w := App.init 0 in
  network (dispatch 10 10 (ChangeFiles (Some Samples.twoFiles)) w)
  <> network w ++ [requestOf (CallUploadFiles Samples.twoFiles)].
Proof.
  vm_compute. discriminate.
Qed.

(** C3, amended.  A non-empty file selection runs the handler at once,
    with no guard and no confirmation; its only effect is one console entry
    with the name of the first selected file.  No request is sent. *)
Theorem file_selection_logs_first_name
    (now date : N) (f : File) (rest : list File) (w : World) :
  dispatch now date (ChangeFiles (Some (f :: rest))) w
  = mkWorld (activeTab w) (messages w) (inputText w) (isLoading w) (repoUrl w)
      (console w ++ [mkLog LevelLog [LStr (lit "File uploaded:");
                                     LStr (file_name f)]])
      (timers w) (network w).
Proof. reflexivity. Qed.

(** C4. With a non-blank draft, [handleSendMessage] appends one user
    message with the draft as its text, empties the draft, sets [isLoading]
    and schedules the simulated reply, all before anything else happens and
    without a request; the scheduled reply, when it runs, appends one bot
    message and clears [isLoading].  The transcript goes from n to n+1 to
    n+2 messages. *)
Theorem chat_submission_appends_user_then_reply
    (now date now' date' : N) (w : World) :
  blank (inputText w) = false ->
  let w1 := handleSendMessage now date w in
  let w2 := runCallback SimulatedReply now' date' w1 in
  w1 = mkWorld (activeTab w)
         (messages w ++ [mkMessage (toString now) (inputText w) user date])
         [] true (repoUrl w) (console w)
         (timers w ++ [mkTimer SimulatedReply 1000]) (network w)
  /\ messages w2
     = messages w1 ++ [mkMessage (toString (now' + 1)) demoReply bot date']
  /\ isLoading w2 = false
  /\ List.length (messages w1) = S (List.length (messages w))
  /\ List.length (messages w2) = S (S (List.length (messages w)))
  /\ (timers w = [] -> dispatch now' date' Timeout w1 = setTimers [] w2).
Proof.
  intros H w1 w2. unfold w2, w1. rewrite (handleSendMessage_fires _ _ _ H).
  split; [reflexivity|]. split; [reflexivity|]. split; [reflexivity|].
  simpl. rewrite !length_app. simpl.
  split; [lia|]. split; [lia|].
  intros Ht. unfold fireTimer. simpl. rewrite Ht. reflexivity.
Qed.

(** C5. A chat submission with a blank draft, by the handler, the send
    button or the Enter key, and a repository submission with a blank URL
    draft, by the handler or the connect button, leave the whole world as it
    is: transcript, [isLoading], drafts, console, timers and network. *)
Theorem blank_submission_is_noop (now date : N) (w : World) :
  (blank (inputText w) = true ->
   handleSendMessage now date w = w
   /\ dispatch now date ClickSend w = w
   /\ dispatch now date (KeyPress (lit "Enter") false) w = w)
  /\ (blank (repoUrl w) = true ->
      handleRepoSubmit now date w = w
      /\ dispatch now date ClickConnect w = w).
Proof.
  split; intros H.
  - pose proof (handleSendMessage_blank now date w H) as Hs.
    split; [exact Hs|]. split.
    + simpl. destruct (chatVisible w && negb (sendDisabled w)); [exact Hs|reflexivity].
    + simpl. destruct (chatVisible w); [|reflexivity].
      unfold handleKeyPress. simpl. exact Hs.
  - pose proof (handleRepoSubmit_blank now date w H) as Hr.
    split; [exact Hr|].
    simpl. destruct (connectDisabled w); [reflexivity|exact Hr].
Qed.

(** C6. A click on a tab, in any world, sets [activeTab] to the id of
    that tab and changes nothing else. *)
Theorem tab_switch_changes_only_activeTab
    (now date : N) (tab : Tab) (w : World) :
  dispatch now date (ClickTab tab) w
  = mkWorld (tab_id tab) (messages w) (inputText w) (isLoading w) (repoUrl w)
      (console w) (timers w) (network w).
Proof. reflexivity. Qed.

(** C9. Two chat submissions with any two non-blank drafts send nothing
    and schedule, 1000 ms ahead, the same closure; run in any world, that
    closure sends nothing and appends one bot message whose text is the
    fixed demo reply. *)
Theorem simulated_reply_ignores_input
    (n1 d1 n2 d2 : N) (w1 w2 : World) :
  blank (inputText w1) = false ->
  blank (inputText w2) = false ->
  let s1 := handleSendMessage n1 d1 w1 in
  let s2 := handleSendMessage n2 d2 w2 in
  network s1 = network w1
  /\ network s2 = network w2
  /\ exists cb,
       timers s1 = timers w1 ++ [mkTimer cb 1000]
       /\ timers s2 = timers w2 ++ [mkTimer cb 1000]
       /\ forall now date w,
            network (runCallback cb now date w) = network w
            /\ exists reply,
                 messages (runCallback cb now date w) = messages w ++ [reply]
                 /\ sender reply = bot
                 /\ text reply = demoReply.
Proof.
  intros H1 H2 s1 s2. unfold s1, s2.
  rewrite (handleSendMessage_fires _ _ _ H1), (handleSendMessage_fires _ _ _ H2).
  split; [reflexivity|]. split; [reflexivity|].
  exists SimulatedReply. split; [reflexivity|]. split; [reflexivity|].
  intros now date w. split; [reflexivity|].
  eexists. split; [reflexivity|]. split; reflexivity.
Qed.

(** C10. A repository submission with a non-blank URL draft, by the
    handler or the connect button, keeps the URL draft and [isLoading] as
    they are (so an idle session stays idle), and schedules nothing. *)
Theorem repo_submit_keeps_draft_and_loading (now date : N) (w : World) :
  blank (repoUrl w) = false ->
  let w' := handleRepoSubmit now date w in
  repoUrl w' = repoUrl w
  /\ isLoading w' = isLoading w
  /\ (isLoading w = false -> isLoading w' = false)
  /\ inputText w' = inputText w
  /\ timers w' = timers w
  /\ dispatch now date ClickConnect w = w'.
Proof.
  intros H w'. unfold w'.
  assert (Hd : dispatch now date ClickConnect w = handleRepoSubmit now date w).
  { simpl. unfold connectDisabled. fold (blank (repoUrl w)). rewrite H. reflexivity. }
  rewrite (handleRepoSubmit_fires _ _ _ H) in *.
  repeat split; try reflexivity; [intros Hi; exact Hi | exact Hd].
Qed.

End Session.

(* ================================================================== *)
(** ** The theorems at sample sessions *)
(* ================================================================== *)

Section SessionSamples.

Import App.

(** C2 amended, at [https://github.com/org/repo] and at a blank draft. *)
Lemma repo_submit_witness :
  (let w := Samples.repoTyped in
   handleRepoSubmit 20 20 w
   = mkWorld (activeTab w)
       (messages w ++ [mkMessage (toString 20)
                                 (lit "Analyzing repository: " ++ repoUrl w)
                                 bot 20])
       (inputText w) (isLoading w) (repoUrl w)
       (console w ++ [mkLog LevelLog [LStr (lit "Repository URL:");
                                      LStr (repoUrl w)]])
       (timers w) (network w))
  /\ handleRepoSubmit 20 20 Samples.blankDrafts = Samples.blankDrafts.
Proof.
  split.
  - apply (proj1 (repo_submit_announces_target 20 20 Samples.repoTyped)).
    reflexivity.
  - apply (proj2 (repo_submit_announces_target 20 20 Samples.blankDrafts)).
    reflexivity.
Defined.

(** C4 at [hello] in a fresh session: one, two, then three messages. *)
Lemma chat_submission_witness :
  let w := Samples.helloTyped in
  let w1 := handleSendMessage 20 20 w in
  let w2 := runCallback SimulatedReply 1020 1020 w1 in
  w1 = mkWorld (activeTab w)
         (messages w ++ [mkMessage (toString 20) (lit "hello") user 20])
         [] true (repoUrl w) (console w)
         (timers w ++ [mkTimer SimulatedReply 1000]) (network w)
  /\ messages w2
     = messages w1 ++ [mkMessage (toString 1021) demoReply bot 1020]
  /\ isLoading w2 = false
  /\ List.length (messages w1) = 2%nat
  /\ List.length (messages w2) = 3%nat
  /\ (timers w = [] -> dispatch 1020 1020 Timeout w1 = setTimers [] w2).
Proof.
  apply (chat_submission_appends_user_then_reply 20 20 1020 1020
           Samples.helloTyped).
  reflexivity.
Defined.

(** C5 at drafts of white space only. *)
Lemma blank_submission_witness :
  let w := Samples.blankDrafts in
  (handleSendMessage 30 30 w = w
   /\ dispatch 30 30 ClickSend w = w
   /\ dispatch 30 30 (KeyPress (lit "Enter") false) w = w)
  /\ (handleRepoSubmit 30 30 w = w
      /\ dispatch 30 30 ClickConnect w = w).
Proof.
  split.
  - apply (proj1 (blank_submission_is_noop 30 30 Samples.blankDrafts)).
    reflexivity.
  - apply (proj2 (blank_submission_is_noop 30 30 Samples.blankDrafts)).
    reflexivity.
Defined.

(** C9 at the drafts [hello] and [a]. *)
Lemma simulated_reply_witness :
  let w1 := Samples.helloTyped in
  let w2 := setInputText (lit "a") Samples.secondDraftWhileLoading in
  let s1 := handleSendMessage 20 20 w1 in
  let s2 := handleSendMessage 50 51 w2 in
  network s1 = network w1
  /\ network s2 = network w2
  /\ exists cb,
       timers s1 = timers w1 ++ [mkTimer cb 1000]
       /\ timers s2 = timers w2 ++ [mkTimer cb 1000]
       /\ forall now date w,
            network (runCallback cb now date w) = network w
            /\ exists reply,
                 messages (runCallback cb now date w) = messages w ++ [reply]
                 /\ sender reply = bot
                 /\ text reply = demoReply.
Proof.
  apply (simulated_reply_ignores_input 20 20 50 51 Samples.helloTyped
           (setInputText (lit "a") Samples.secondDraftWhileLoading));
    reflexivity.
Defined.

(** C10 at [https://github.com/org/repo]. *)
Lemma repo_submit_frame_witness :
  let w := Samples.repoTyped in
  let w' := handleRepoSubmit 20 20 w in
  repoUrl w' = lit "https://github.com/org/repo"
  /\ isLoading w' = false
  /\ (isLoading w = false -> isLoading w' = false)
  /\ inputText w' = inputText w
  /\ timers w' = timers w
  /\ dispatch 20 20 ClickConnect w = w'.
Proof.
  apply (repo_submit_keeps_draft_and_loading 20 20 Samples.repoTyped).
  reflexivity.
Defined.

End SessionSamples.

(* ================================================================== *)
(** ** The API module: what a call does and returns *)
(* ================================================================== *)

Section CallFacts.

Variable net : Adapter.

Lemma jseqb_refl (a : jsstring) : jseqb a a = true.
Proof. apply jseqb_eq. reflexivity. Qed.

Lemma jseqb_neq (a b : jsstring) : a <> b -> jseqb a b = false.
Proof.
  intros H. destruct (jseqb a b) eqn:E; [|reflexivity].
  apply jseqb_eq in E. contradiction.
Qed.

(** Property access finds the first binding of the key. *)
Lemma lookupField_first (k : jsstring) (v : Json)
    (pre post : list (jsstring * Json)) :
  (forall kv, In kv pre -> fst kv <> k) ->
  lookupField k (pre ++ (k, v) :: post) = v.
Proof.
  induction pre as [|[k' v'] pre IH]; intros Hpre; simpl.
  - rewrite jseqb_refl. reflexivity.
  - rewrite jseqb_neq.
    + apply IH. intros kv Hin. apply Hpre. right. exact Hin.
    + intros ->. apply (Hpre (k', v')); [left|]; reflexivity.
Qed.

Lemma lookupField_absent (k : jsstring) (fields : list (jsstring * Json)) :
  (forall kv, In kv fields -> fst kv <> k) ->
  lookupField k fields = JUndefined.
Proof.
  induction fields as [|[k' v'] fields IH]; intros Hf; simpl.
  - reflexivity.
  - rewrite jseqb_neq.
    + apply IH. intros kv Hin. apply Hf. right. exact Hin.
    + intros ->. apply (Hf (k', v')); [left|]; reflexivity.
Qed.

(** A call whose request is answered goes on with the response, in a world
    where only the request was added. *)
Lemma perform_fulfilled (c : Call) (w : World) (r : Response) :
  net (network w) (requestOf c) = inr r ->
  perform net c w = afterResponse c r (network_send (requestOf c) w).
Proof.
  intros H.
  destruct c as [message| |repoUrl|files| |type|type]; simpl perform.
  - unfold chatAPI.sendMessage.
    erewrite bind_fulfilled; [reflexivity|]. apply request_fulfilled. exact H.
  - unfold chatAPI.getHistory.
    erewrite bind_fulfilled; [reflexivity|]. apply request_fulfilled. exact H.
  - unfold repositoryAPI.analyzeRepository.
    erewrite bind_fulfilled; [reflexivity|]. apply request_fulfilled. exact H.
  - unfold repositoryAPI.uploadFiles. rewrite forEach_append.
    erewrite bind_fulfilled; [reflexivity|]. apply request_fulfilled. exact H.
  - unfold suggestionsAPI.getSuggestions.
    erewrite bind_fulfilled; [reflexivity|]. apply request_fulfilled. exact H.
  - unfold suggestionsAPI.generateTestScripts.
    erewrite bind_fulfilled; [reflexivity|]. apply request_fulfilled. exact H.
  - unfold suggestionsAPI.generateMonitoringConfig.
    erewrite bind_fulfilled; [reflexivity|]. apply request_fulfilled. exact H.
Qed.

Lemma afterResponse_world (c : Call) (r : Response) (w : World) :
  snd (afterResponse c r w) = w.
Proof.
  unfold afterResponse. destruct (artifactField c); [|reflexivity].
  unfold getProp. destruct (data r); reflexivity.
Qed.

Lemma perform_rejected (c : Call) (w : World) (e : AxiosError) :
  net (network w) (requestOf c) = inl e ->
  perform net c w
  = (inl (Axios e),
     console_write (apiErrorEntry e) (network_send (requestOf c) w)).
Proof.
  intros H.
  destruct (perform_shape net c) as (m & url & body & config & k & Hreq & Hp & _).
  rewrite Hp, <- Hreq. apply bind_rejected. apply request_rejected.
  rewrite Hreq. exact H.
Qed.

(** X1. A call of any client function, with any argument, puts its one
    request on the network whether the transport answers or rejects; the
    console gets one entry when the transport rejects and none when it
    answers; nothing else in the world changes. *)
Theorem call_effect_on_world (c : Call) (w : World) :
  snd (perform net c w)
  = match net (network w) (requestOf c) with
    | inl e => console_write (apiErrorEntry e) (network_send (requestOf c) w)
    | inr _ => network_send (requestOf c) w
    end.
Proof.
  destruct (net (network w) (requestOf c)) as [e|r] eqn:H.
  - rewrite (perform_rejected c w e H). reflexivity.
  - rewrite (perform_fulfilled c w r H). apply afterResponse_world.
Qed.

(** X2. [sendMessage], [getHistory], [analyzeRepository], [uploadFiles]
    and [getSuggestions] return the body of the response as it came,
    whatever its shape. *)
Theorem body_is_returned_unchecked (c : Call) (w : World) (r : Response) :
  artifactField c = None ->
  net (network w) (requestOf c) = inr r ->
  perform net c w = (inr (data r), network_send (requestOf c) w).
Proof.
  intros Hc H. rewrite (perform_fulfilled c w r H).
  unfold afterResponse. rewrite Hc. reflexivity.
Qed.

(** X3. [generateTestScripts] and [generateMonitoringConfig] return the
    value of the property [script], respectively [config], of the response
    body when the body is an object that has it. *)
Theorem artifact_is_the_named_property
    (c : Call) (k : jsstring) (w : World) (r : Response)
    (pre post : list (jsstring * Json)) (v : Json) :
  artifactField c = Some k ->
  net (network w) (requestOf c) = inr r ->
  data r = JObj (pre ++ (k, v) :: post) ->
  (forall kv, In kv pre -> fst kv <> k) ->
  perform net c w = (inr v, network_send (requestOf c) w).
Proof.
  intros Hc H Hd Hpre. rewrite (perform_fulfilled c w r H).
  unfold afterResponse. rewrite Hc. unfold getProp. rewrite Hd.
  unfold ret. rewrite (lookupField_first k v pre post Hpre). reflexivity.
Qed.

(** X4. When the body of the response is [null] or [undefined], the two
    generation functions throw a [TypeError], of which the console gets no
    entry; when it is an object without the property, or a primitive or an
    array, they return [undefined]. *)
Theorem artifact_missing
    (c : Call) (k : jsstring) (w : World) (r : Response) :
  artifactField c = Some k ->
  net (network w) (requestOf c) = inr r ->
  (data r = JNull \/ data r = JUndefined ->
   perform net c w = (inl TypeError, network_send (requestOf c) w))
  /\ (forall fields,
        data r = JObj fields ->
        (forall kv, In kv fields -> fst kv <> k) ->
        perform net c w = (inr JUndefined, network_send (requestOf c) w))
  /\ ((exists b, data r = JBool b) \/ (exists n, data r = JNum n)
      \/ (exists s, data r = JStr s) \/ (exists l, data r = JArr l) ->
      perform net c w = (inr JUndefined, network_send (requestOf c) w)).
Proof.
  intros Hc H. rewrite (perform_fulfilled c w r H).
  unfold afterResponse. rewrite Hc. unfold getProp.
  split; [|split].
  - intros [-> | ->]; reflexivity.
  - intros fields -> Hf. unfold ret.
    rewrite (lookupField_absent k fields Hf). reflexivity.
  - intros [[b ->] | [[n ->] | [[s ->] | [l ->]]]]; reflexivity.
Qed.

End CallFacts.

(* ================================================================== *)
(** ** The component: invariants of a session *)
(* ================================================================== *)

Section AppInvariants.

Import App.

(** What one turn of the event loop can do to the transcript, the timers
    and [isLoading]: nothing, a chat submission, a repository announcement,
    or the arrival of the oldest simulated reply. *)
Lemma dispatch_effect (now date : N) (e : Event) (w : World) :
  (messages (dispatch now date e w) = messages w
   /\ timers (dispatch now date e w) = timers w
   /\ isLoading (dispatch now date e w) = isLoading w)
  \/ (blank (inputText w) = false
      /\ dispatch now date e w = handleSendMessage now date w)
  \/ (blank (repoUrl w) = false
      /\ dispatch now date e w = handleRepoSubmit now date w)
  \/ (exists t rest,
        timers w = t :: rest
        /\ dispatch now date e w
           = runCallback (callback t) now date (setTimers rest w)).
Proof.
  destruct e as [tab|v| |files|v|key shift| | ]; simpl.
  - left. repeat split.
  - left. repeat split.
  - unfold connectDisabled. fold (blank (repoUrl w)).
    destruct (blank (repoUrl w)) eqn:Hb.
    + left. repeat split.
    + right. right. left. split; reflexivity.
  - left. unfold handleFileUpload. destruct files as [[|f r]|]; repeat split.
  - left. destruct (chatVisible w); repeat split.
  - destruct (chatVisible w); [|left; repeat split].
    unfold handleKeyPress.
    destruct (jseqb key (lit "Enter") && negb shift); [|left; repeat split].
    simpl. destruct (blank (inputText w)) eqn:Hb.
    + left. rewrite (handleSendMessage_blank _ _ _ Hb). repeat split.
    + right. left. split; reflexivity.
  - destruct (chatVisible w && negb (sendDisabled w)); [|left; repeat split].
    destruct (blank (inputText w)) eqn:Hb.
    + left. rewrite (handleSendMessage_blank _ _ _ Hb). repeat split.
    + right. left. split; reflexivity.
  - unfold fireTimer. destruct (timers w) as [|t rest] eqn:Ht.
    + left. repeat split. exact Ht.
    + right. right. right. exists t, rest. split; reflexivity.
Qed.

Lemma run_cons (now date : N) (e : Event) (trace : list Turn) (w : World) :
  run ((now, date, e) :: trace) w = run trace (dispatch now date e w).
Proof. reflexivity. Qed.

Lemma run_snoc (now date : N) (e : Event) (trace : list Turn) (w : World) :
  run (trace ++ [(now, date, e)]) w = dispatch now date e (run trace w).
Proof. rewrite run_app. reflexivity. Qed.

(** An invariant of [dispatch] that holds at the first render holds in
    every world of a session. *)
Lemma session_invariant (P : World -> Prop) :
  (forall date, P (init date)) ->
  (forall now date e w, P w -> P (dispatch now date e w)) ->
  forall date trace, P (run trace (init date)).
Proof.
  intros Hinit Hstep date trace.
  induction trace as [|[[now d] e] trace IH] using rev_ind.
  - apply Hinit.
  - rewrite run_snoc. apply Hstep. exact IH.
Qed.

Lemma countMessages_append (p : Message -> bool) (ms : list Message) (m : Message) :
  List.length (filter p (ms ++ [m]))
  = (List.length (filter p ms) + (if p m then 1 else 0))%nat.
Proof.
  rewrite filter_app, length_app. simpl. destruct (p m); reflexivity.
Qed.

(** Every user message has its reply in the transcript or on its way. *)
Lemma balance_step (now date : N) (e : Event) (w : World) :
  countMessages isUserMessage w
  = (List.length (timers w) + countMessages isDemoReply w)%nat ->
  countMessages isUserMessage (dispatch now date e w)
  = (List.length (timers (dispatch now date e w))
     + countMessages isDemoReply (dispatch now date e w))%nat.
Proof.
  unfold countMessages. intros H.
  destruct (dispatch_effect now date e w)
    as [(Hm & Ht & _) | [(Hb & ->) | [(Hb & ->) | (t & rest & Ht & ->)]]].
  - rewrite Hm, Ht. exact H.
  - rewrite (handleSendMessage_fires _ _ _ Hb). simpl.
    rewrite !countMessages_append, length_app. simpl. lia.
  - rewrite (handleRepoSubmit_fires _ _ _ Hb). simpl.
    rewrite !countMessages_append. simpl.
    change (isDemoReply _) with false. lia.
  - destruct t as [[] d]. simpl.
    rewrite !countMessages_append. simpl.
    change (isDemoReply _) with true. rewrite Ht in H. simpl in H. lia.
Qed.

Lemma loading_step (now date : N) (e : Event) (w : World) :
  (isLoading w = true -> timers w <> []) ->
  isLoading (dispatch now date e w) = true ->
  timers (dispatch now date e w) <> [].
Proof.
  intros H.
  destruct (dispatch_effect now date e w)
    as [(_ & Ht & Hl) | [(Hb & ->) | [(Hb & ->) | (t & rest & Ht & ->)]]].
  - rewrite Ht, Hl. exact H.
  - rewrite (handleSendMessage_fires _ _ _ Hb). simpl.
    intros _ Hnil. apply app_eq_nil in Hnil. destruct Hnil as [_ Hnil].
    discriminate Hnil.
  - rewrite (handleRepoSubmit_fires _ _ _ Hb). simpl. exact H.
  - destruct t as [[] d]. simpl. discriminate.
Qed.

Lemma origin_step (now date : N) (e : Event) (w : World) :
  Forall messageOrigin (messages w) ->
  Forall messageOrigin (messages (dispatch now date e w)).
Proof.
  intros H.
  destruct (dispatch_effect now date e w)
    as [(Hm & _ & _) | [(Hb & ->) | [(Hb & ->) | (t & rest & Ht & ->)]]].
  - rewrite Hm. exact H.
  - rewrite (handleSendMessage_fires _ _ _ Hb). simpl.
    apply Forall_app. split; [exact H|].
    constructor; [exact Hb | constructor].
  - rewrite (handleRepoSubmit_fires _ _ _ Hb). simpl.
    apply Forall_app. split; [exact H|].
    constructor; [|constructor].
    right. right. exists (repoUrl w). split; [exact Hb | reflexivity].
  - destruct t as [[] d]. simpl.
    apply Forall_app. split; [exact H|].
    constructor; [|constructor]. right. left. reflexivity.
Qed.

(** The pending replies arrive one per turn, oldest first. *)
Lemma drain (clocks : list (N * N)) (w : World) :
  List.length clocks = List.length (timers w) ->
  timers (run (timeouts clocks) w) = []
  /\ (clocks <> [] -> isLoading (run (timeouts clocks) w) = false)
  /\ exists replies,
       messages (run (timeouts clocks) w) = messages w ++ replies
       /\ List.length replies = List.length clocks
       /\ Forall (fun m => sender m = bot /\ text m = demoReply) replies.
Proof.
  revert w. induction clocks as [|[now date] clocks IH]; intros w Hlen.
  - simpl. split; [|split].
    + destruct (timers w); [reflexivity | discriminate Hlen].
    + intros H. contradiction.
    + exists []. rewrite app_nil_r. repeat split. constructor.
  - destruct (timers w) as [|[[] d] rest] eqn:Ht; [discriminate Hlen|].
    simpl in Hlen. injection Hlen as Hlen.
    change (timeouts ((now, date) :: clocks))
      with ((now, date, Timeout) :: timeouts clocks).
    rewrite run_cons. simpl dispatch. unfold fireTimer. rewrite Ht.
    simpl runCallback.
    set (w1 := setIsLoading false _).
    destruct (IH w1 Hlen) as (Htimers & Hload & replies & Hm & Hn & Hall).
    split; [exact Htimers|]. split.
    + intros _. destruct clocks as [|c clocks].
      * reflexivity.
      * apply Hload. discriminate.
    + eexists (_ :: replies). split; [|split].
      * rewrite Hm. unfold w1. simpl. rewrite <- app_assoc. reflexivity.
      * simpl. rewrite Hn. reflexivity.
      * constructor; [split; reflexivity | exact Hall].
Qed.

End AppInvariants.

(* ================================================================== *)
(** ** The component: message ids and the active tab *)
(* ================================================================== *)

Section IdsAndTabs.

Import App.

Lemma lit_inj (s1 s2 : string) : lit s1 = lit s2 -> s1 = s2.
Proof.
  unfold lit. revert s2.
  induction s1 as [|a s1 IH]; intros [|b s2]; simpl; try discriminate.
  - reflexivity.
  - intros H. injection H as Ha Hr. f_equal.
    + rewrite <- (ascii_N_embedding a), Ha. apply ascii_N_embedding.
    + apply IH. exact Hr.
Qed.

Lemma to_uint_nonnil (n : N) : N.to_uint n <> Decimal.Nil.
Proof.
  destruct n as [|p]; simpl.
  - discriminate.
  - apply DecimalPos.Unsigned.to_uint_nonnil.
Qed.

(** Two numbers with the same decimal notation are equal. *)
Lemma toString_inj (n m : N) : toString n = toString m -> n = m.
Proof.
  unfold toString. intros H. apply lit_inj in H.
  apply DecimalN.Unsigned.to_uint_inj.
  assert (Hs : Some (N.to_uint n) = Some (N.to_uint m)).
  { rewrite <- (NilZero.usu _ (to_uint_nonnil n)),
            <- (NilZero.usu _ (to_uint_nonnil m)), H. reflexivity. }
  injection Hs as Hs. exact Hs.
Qed.

Lemma idsBelow_weaken (b b' : N) (ms : list Message) :
  b <= b' -> idsBelow b ms -> idsBelow b' ms.
Proof.
  intros Hb [Hnd Hall]. split; [exact Hnd|].
  eapply Forall_impl; [|exact Hall].
  intros m (k & Hk & Hle). exists k. split; [exact Hk | lia].
Qed.

Lemma NoDup_snoc {A : Type} (l : list A) (x : A) :
  NoDup l -> ~ In x l -> NoDup (l ++ [x]).
Proof.
  induction l as [|a l IH]; intros Hnd Hx; simpl.
  - constructor; [intros [] | constructor].
  - inversion Hnd as [|a' l' Ha Hl]; subst.
    constructor.
    + intros Hin. apply in_app_or in Hin. destruct Hin as [Hin | [<- | []]].
      * contradiction.
      * apply Hx. left. reflexivity.
    + apply IH; [exact Hl|]. intros Hin. apply Hx. right. exact Hin.
Qed.

Lemma idsBelow_snoc (b b' k : N) (ms : list Message) (m : Message) :
  idsBelow b ms -> id m = toString k -> b < k -> k <= b' ->
  idsBelow b' (ms ++ [m]).
Proof.
  intros [Hnd Hall] Hid Hlt Hle. split.
  - rewrite map_app. simpl. apply NoDup_snoc; [exact Hnd|].
    intros Hin. apply in_map_iff in Hin. destruct Hin as (m' & Hm' & Hin).
    rewrite Forall_forall in Hall. destruct (Hall m' Hin) as (k' & Hk' & Hle').
    rewrite Hid, Hk' in Hm'. apply toString_inj in Hm'. lia.
  - apply Forall_app. split.
    + eapply Forall_impl; [|exact Hall].
      intros m' (k' & Hk' & Hle'). exists k'. split; [exact Hk' | lia].
    + constructor; [|constructor]. exists k. split; [exact Hid | exact Hle].
Qed.

Lemma ids_step (last now date : N) (e : Event) (w : World) :
  last + 1 < now ->
  idsBelow (last + 1) (messages w) ->
  idsBelow (now + 1) (messages (dispatch now date e w)).
Proof.
  intros Hlt H.
  destruct (dispatch_effect now date e w)
    as [(Hm & _ & _) | [(Hb & ->) | [(Hb & ->) | (t & rest & Ht & ->)]]].
  - rewrite Hm. apply (idsBelow_weaken (last + 1)); [lia | exact H].
  - rewrite (handleSendMessage_fires _ _ _ Hb). simpl.
    apply (idsBelow_snoc (last + 1) (now + 1) now); [exact H|reflexivity|lia|lia].
  - rewrite (handleRepoSubmit_fires _ _ _ Hb). simpl.
    apply (idsBelow_snoc (last + 1) (now + 1) now); [exact H|reflexivity|lia|lia].
  - destruct t as [[] d]. simpl.
    apply (idsBelow_snoc (last + 1) (now + 1) (now + 1));
      [exact H|reflexivity|lia|lia].
Qed.

Lemma ids_run (trace : list Turn) (last : N) (w : World) :
  spaced last trace = true ->
  idsBelow (last + 1) (messages w) ->
  NoDup (map id (messages (run trace w))).
Proof.
  revert last w.
  induction trace as [|[[now date] e] trace IH]; intros last w Hs H.
  - exact (proj1 H).
  - simpl in Hs. apply andb_true_iff in Hs. destruct Hs as [Hlt Hs].
    apply N.ltb_lt in Hlt. rewrite run_cons.
    apply (IH now); [exact Hs|]. apply (ids_step last); assumption.
Qed.

(** Only a click on a tab changes [activeTab]. *)
Lemma dispatch_activeTab (now date : N) (e : Event) (w : World) :
  activeTab (dispatch now date e w)
  = match e with
    | ClickTab tab => tab_id tab
    | _ => activeTab w
    end.
Proof.
  destruct e as [tab|v| |files|v|key shift| | ]; simpl; try reflexivity.
  - destruct (connectDisabled w); [reflexivity|].
    unfold handleRepoSubmit. destruct (truthy (trim (repoUrl w))); reflexivity.
  - unfold handleFileUpload. destruct files as [[|f r]|]; reflexivity.
  - destruct (chatVisible w); reflexivity.
  - destruct (chatVisible w); [|reflexivity].
    unfold handleKeyPress, handleSendMessage.
    destruct (jseqb key (lit "Enter") && negb shift); [|reflexivity].
    simpl. destruct (negb (truthy (trim (inputText w)))); reflexivity.
  - destruct (chatVisible w && negb (sendDisabled w)); [|reflexivity].
    unfold handleSendMessage.
    destruct (negb (truthy (trim (inputText w)))); reflexivity.
  - unfold fireTimer. destruct (timers w) as [|[[] d] r]; reflexivity.
Qed.

Lemma activeTab_run (trace : list Turn) (w : World) :
  clicksOnScreen trace ->
  In (activeTab w) (map tab_id tabs) ->
  In (activeTab (run trace w)) (map tab_id tabs).
Proof.
  revert w. induction trace as [|[[now date] e] trace IH]; intros w Hc Hw.
  - exact Hw.
  - inversion Hc as [|t ts He Hrest]; subst. rewrite run_cons.
    apply IH; [exact Hrest|]. rewrite dispatch_activeTab.
    destruct e; try exact Hw.
    simpl in He. apply in_map. exact He.
Qed.

Lemma one_pane (w : World) :
  In (activeTab w) (map tab_id tabs) ->
  exists p tab,
    View.renderedPanes w = [p]
    /\ View.activeButtons w = [tab]
    /\ View.paneTab p = activeTab w
    /\ tab_id tab = activeTab w.
Proof.
  unfold View.renderedPanes, View.activeButtons.
  intros H. simpl in H.
  destruct H as [H | [H | [H | [H | [H | []]]]]]; rewrite <- H.
  - exists View.ChatPane, (mkTab (lit "chat") (lit "Chat")).
    repeat split.
  - exists View.SuggestionsPane, (mkTab (lit "suggestions") (lit "Suggestions")).
    repeat split.
  - exists View.MonitoringPane, (mkTab (lit "monitoring") (lit "Monitoring")).
    repeat split.
  - exists View.TestingPane, (mkTab (lit "testing") (lit "Testing")).
    repeat split.
  - exists View.SettingsPane, (mkTab (lit "settings") (lit "Settings")).
    repeat split.
Qed.

End IdsAndTabs.

(* ================================================================== *)
(** ** The component: properties of every session *)
(* ================================================================== *)

Section SessionFacts.

Import App.

(** X5. Whatever the events and from whatever world, the transcript
    after them is the transcript before them with messages added at its
    end: no message is removed, reordered or edited. *)
Theorem transcript_only_grows (trace : list Turn) (w : World) :
  exists more, messages (run trace w) = messages w ++ more.
Proof. apply run_transcript. Qed.

(** X6. In every world of a session the transcript starts with the
    greeting of the first render. *)
Theorem greeting_stays_first (date : N) (trace : list Turn) :
  exists more,
    messages (run trace (init date))
    = mkMessage (lit "1") greeting bot date :: more.
Proof.
  destruct (run_transcript trace (init date)) as [more H].
  exists more. rewrite H. reflexivity.
Qed.

(** X7. In no world of a session has a request been sent: no handler of
    the component calls the API module. *)
Theorem component_never_sends (date : N) (trace : list Turn) :
  network (run trace (init date)) = [].
Proof. rewrite run_network. reflexivity. Qed.

(** X8. In every world of a session, the user messages of the transcript
    are as many as the simulated replies in it plus the replies still
    scheduled. *)
Theorem replies_balance (date : N) (trace : list Turn) :
  countMessages isUserMessage (run trace (init date))
  = (List.length (timers (run trace (init date)))
     + countMessages isDemoReply (run trace (init date)))%nat.
Proof.
  apply (session_invariant
           (fun w => countMessages isUserMessage w
                     = (List.length (timers w) + countMessages isDemoReply w)%nat)).
  - intros d. reflexivity.
  - intros now d e w. apply balance_step.
Qed.

(** X9. In every world of a session where [isLoading] is set, a simulated
    reply is scheduled. *)
Theorem loading_means_reply_pending (date : N) (trace : list Turn) :
  isLoading (run trace (init date)) = true ->
  timers (run trace (init date)) <> [].
Proof.
  apply (session_invariant (fun w => isLoading w = true -> timers w <> [])).
  - intros d H. discriminate H.
  - intros now d e w. apply loading_step.
Qed.

(** X10. From any world, once as many timers have elapsed as were
    pending, none is pending, the transcript has gained exactly that many
    bot messages, each the demo reply, and, if there was one at least,
    [isLoading] is clear. *)
Theorem pending_replies_drain (clocks : list (N * N)) (w : World) :
  List.length clocks = List.length (timers w) ->
  timers (run (timeouts clocks) w) = []
  /\ (clocks <> [] -> isLoading (run (timeouts clocks) w) = false)
  /\ exists replies,
       messages (run (timeouts clocks) w) = messages w ++ replies
       /\ List.length replies = List.length clocks
       /\ Forall (fun m => sender m = bot /\ text m = demoReply) replies.
Proof. apply drain. Qed.

(** X11. From every world of a session, once the pending timers have
    elapsed, [isLoading] is clear: the typing indicator never stays. *)
Theorem indicator_always_clears
    (date : N) (trace : list Turn) (clocks : list (N * N)) :
  List.length clocks = List.length (timers (run trace (init date))) ->
  isLoading (run (timeouts clocks) (run trace (init date))) = false.
Proof.
  intros Hlen. destruct clocks as [|c clocks].
  - simpl.
    destruct (isLoading (run trace (init date))) eqn:Hl; [|reflexivity].
    exfalso.
    apply (session_invariant (fun w => isLoading w = true -> timers w <> []))
      with (date := date) (trace := trace) in Hl.
    + destruct (timers (run trace (init date))); [apply Hl; reflexivity|].
      discriminate Hlen.
    + intros d H. discriminate H.
    + intros now d e w. apply loading_step.
  - apply (drain (c :: clocks) _ Hlen). discriminate.
Qed.

(** X12. A click on the send button fires a chat submission exactly when
    the chat pane is shown, the draft is not blank and [isLoading] is
    clear. *)
Theorem send_button_guard (now date : N) (w : World) :
  chatSubmissionFires w (dispatch now date ClickSend w)
  <-> chatVisible w = true /\ blank (inputText w) = false
      /\ isLoading w = false.
Proof.
  split.
  - intros H. pose proof (click_send_guarded now date w H) as [Hb Hl].
    split; [|split; assumption].
    destruct (chatVisible w) eqn:Hv; [reflexivity|].
    simpl in H. rewrite Hv in H. simpl in H.
    destruct H as (m & Hm & _). exfalso. exact (no_self_extension _ _ Hm).
  - intros (Hv & Hb & Hl). simpl. unfold sendDisabled.
    fold (blank (inputText w)). rewrite Hv, Hb, Hl. simpl.
    rewrite (handleSendMessage_fires _ _ _ Hb).
    eexists. split; [reflexivity|]. split; [reflexivity|].
    simpl. rewrite length_app. simpl. lia.
Qed.

(** X13. A key press in the text area fires a chat submission exactly
    when the chat pane is shown, the key is Enter without Shift and the
    draft is not blank: [isLoading] plays no part. *)
Theorem enter_key_guard
    (key : jsstring) (shiftKey : bool) (now date : N) (w : World) :
  chatSubmissionFires w (dispatch now date (KeyPress key shiftKey) w)
  <-> chatVisible w = true /\ key = lit "Enter" /\ shiftKey = false
      /\ blank (inputText w) = false.
Proof.
  split.
  - simpl. unfold handleKeyPress.
    destruct (chatVisible w);
      [|intros (m & Hm & _); exfalso; exact (no_self_extension _ _ Hm)].
    destruct (jseqb key (lit "Enter")) eqn:Hk; simpl;
      [|intros (m & Hm & _); exfalso; exact (no_self_extension _ _ Hm)].
    apply jseqb_eq in Hk.
    destruct shiftKey; simpl;
      [intros (m & Hm & _); exfalso; exact (no_self_extension _ _ Hm)|].
    destruct (blank (inputText w)) eqn:Hb.
    + rewrite (handleSendMessage_blank _ _ _ Hb).
      intros (m & Hm & _). exfalso. exact (no_self_extension _ _ Hm).
    + intros _. repeat split. exact Hk.
  - intros (Hv & -> & -> & Hb). simpl. rewrite Hv.
    unfold handleKeyPress. simpl.
    rewrite (handleSendMessage_fires _ _ _ Hb).
    eexists. split; [reflexivity|]. split; [reflexivity|].
    simpl. rewrite length_app. simpl. lia.
Qed.

(** X14. [handleSendMessage] leaves the world as it is exactly when every
    code unit of the chat draft is white space, and [handleRepoSubmit]
    exactly when every code unit of the URL draft is. *)
Theorem handlers_idle_iff_all_white (now date : N) (w : World) :
  (handleSendMessage now date w = w
   <-> forallb isWhiteSpace (inputText w) = true)
  /\ (handleRepoSubmit now date w = w
      <-> forallb isWhiteSpace (repoUrl w) = true).
Proof.
  split; rewrite <- blank_iff_all_white; split.
  - intros H. destruct (blank (inputText w)) eqn:Hb; [reflexivity|].
    rewrite (handleSendMessage_fires _ _ _ Hb) in H.
    apply (f_equal messages) in H. simpl in H. symmetry in H.
    exfalso. exact (no_self_extension _ _ H).
  - apply handleSendMessage_blank.
  - intros H. destruct (blank (repoUrl w)) eqn:Hb; [reflexivity|].
    rewrite (handleRepoSubmit_fires _ _ _ Hb) in H.
    apply (f_equal messages) in H. simpl in H. symmetry in H.
    exfalso. exact (no_self_extension _ _ H).
  - apply handleRepoSubmit_blank.
Qed.

(** X15. [handleKeyPress] calls [preventDefault] exactly for Enter
    without Shift, blank draft or not; for any other key, and for Enter
    with Shift, it leaves the world as it is. *)
Theorem key_press_swallows_plain_enter
    (key : jsstring) (shiftKey : bool) (now date : N) (w : World) :
  (fst (handleKeyPress key shiftKey now date w) = true
   <-> key = lit "Enter" /\ shiftKey = false)
  /\ (fst (handleKeyPress key shiftKey now date w) = false ->
      snd (handleKeyPress key shiftKey now date w) = w).
Proof.
  unfold handleKeyPress.
  destruct (jseqb key (lit "Enter")) eqn:Hk; destruct shiftKey; simpl.
  - split; [split; [discriminate | intros [_ H]; discriminate H] | reflexivity].
  - apply jseqb_eq in Hk.
    split; [split; [intros _; split; [exact Hk | reflexivity] | reflexivity]
           | discriminate].
  - split; [split; [discriminate | intros [_ H]; discriminate H] | reflexivity].
  - split; [|reflexivity].
    split; [discriminate|]. intros [H _]. apply jseqb_eq in H.
    rewrite H in Hk. discriminate Hk.
Qed.

(** X16. In every world of a session whose tab clicks are clicks on the
    buttons of [tabs], exactly one block of the main area is rendered and
    exactly one button of the navigation is active, both those of
    [activeTab]. *)
Theorem one_pane_is_rendered (date : N) (trace : list Turn) :
  clicksOnScreen trace ->
  exists p tab,
    View.renderedPanes (run trace (init date)) = [p]
    /\ View.activeButtons (run trace (init date)) = [tab]
    /\ View.paneTab p = activeTab (run trace (init date))
    /\ tab_id tab = activeTab (run trace (init date)).
Proof.
  intros Hc. apply one_pane. apply activeTab_run; [exact Hc|].
  left. reflexivity.
Qed.

(** X17. In a session where [Date.now()] is above 1 in the first turn and
    advances by more than one millisecond from each turn to the next, the
    ids of the messages of the transcript are pairwise distinct. *)
Theorem message_ids_distinct (date : N) (trace : list Turn) :
  spaced 0 trace = true ->
  NoDup (map id (messages (run trace (init date)))).
Proof.
  intros Hs. apply (ids_run trace 0); [exact Hs|].
  split.
  - simpl. constructor; [intros [] | constructor].
  - constructor; [|constructor]. exists 1. split; [reflexivity | lia].
Qed.

(** X18. In every world of a session, every user message of the
    transcript has a text that is not blank, and every bot message is the
    greeting, the demo reply, or [Analyzing repository: ] followed by a URL
    that is not blank. *)
Theorem transcript_provenance (date : N) (trace : list Turn) :
  Forall messageOrigin (messages (run trace (init date))).
Proof.
  apply (session_invariant (fun w => Forall messageOrigin (messages w))).
  - intros d. constructor; [|constructor]. left. reflexivity.
  - intros now d e w. apply origin_step.
Qed.

Lemma dispatch_repoUrl (now date : N) (e : Event) (w : World) :
  repoUrl (dispatch now date e w)
  = match e with
    | ChangeRepoUrl value => value
    | _ => repoUrl w
    end.
Proof.
  destruct e as [tab|v| |files|v|key shift| | ]; simpl; try reflexivity.
  - destruct (connectDisabled w); [reflexivity|].
    unfold handleRepoSubmit. destruct (truthy (trim (repoUrl w))); reflexivity.
  - unfold handleFileUpload. destruct files as [[|f r]|]; reflexivity.
  - destruct (chatVisible w); reflexivity.
  - destruct (chatVisible w); [|reflexivity].
    unfold handleKeyPress, handleSendMessage.
    destruct (jseqb key (lit "Enter") && negb shift); [|reflexivity].
    simpl. destruct (negb (truthy (trim (inputText w)))); reflexivity.
  - destruct (chatVisible w && negb (sendDisabled w)); [|reflexivity].
    unfold handleSendMessage.
    destruct (negb (truthy (trim (inputText w)))); reflexivity.
  - unfold fireTimer. destruct (timers w) as [|[[] d] r]; reflexivity.
Qed.

(** X19. [handleFileUpload] leaves the world as it is exactly when the
    selection is [null] or empty. *)
Theorem file_handler_idle_iff_no_file (files : option (list File)) (w : World) :
  handleFileUpload files w = w <-> files = None \/ files = Some [].
Proof.
  unfold handleFileUpload. split.
  - destruct files as [[|f r]|]; [right; reflexivity | | left; reflexivity].
    intros H. apply (f_equal console) in H. simpl in H. symmetry in H.
    exfalso. exact (no_self_extension _ _ H).
  - intros [-> | ->]; reflexivity.
Qed.

(** X20. After any events, the URL draft is what was last typed in the
    URL field, or what it was before them when nothing was typed there: no
    submission, upload, tab click, key press or reply changes or clears
    it. *)
Theorem url_draft_is_last_typed (trace : list Turn) (w : World) :
  repoUrl (run trace w) = lastTypedUrl trace (repoUrl w).
Proof.
  revert w. induction trace as [|[[now date] e] trace IH]; intros w.
  - reflexivity.
  - rewrite run_cons, IH, dispatch_repoUrl. reflexivity.
Qed.

End SessionFacts.

(* ================================================================== *)
(** ** The properties at sample calls and sessions *)
(* ================================================================== *)

Section MoreWitnesses.

Import App.

(** X2 at [getHistory] against a service that answers with an analysis:
    the analysis is what the caller gets. *)
Lemma body_is_returned_witness :
  perform Samples.okNet CallGetHistory (init 0)
  = (inr Samples.analysis, network_send (requestOf CallGetHistory) (init 0)).
Proof.
  apply (body_is_returned_unchecked Samples.okNet CallGetHistory (init 0)
           (mkResponse 200 Samples.analysis)); reflexivity.
Defined.

(** X3 at [generateTestScripts('pytest')]. *)
Lemma artifact_witness :
  perform MoreSamples.scriptNet (CallGenerateTestScripts pytest) (init 0)
  = (inr (JStr (lit "def test_health(): pass")),
     network_send (requestOf (CallGenerateTestScripts pytest)) (init 0)).
Proof.
  apply (artifact_is_the_named_property MoreSamples.scriptNet
           (CallGenerateTestScripts pytest) (lit "script") (init 0)
           (mkResponse 200
              (JObj [(lit "language", JStr (lit "python"));
                     (lit "script", JStr (lit "def test_health(): pass"))]))
           [(lit "language", JStr (lit "python"))] []).
  - reflexivity.
  - reflexivity.
  - reflexivity.
  - intros kv [<- | []]. simpl. discriminate.
Defined.

(** X4 at [generateMonitoringConfig('grafana')] answered with [null]. *)
Lemma artifact_missing_witness :
  perform MoreSamples.nullNet (CallGenerateMonitoringConfig grafana) (init 0)
  = (inl TypeError,
     network_send (requestOf (CallGenerateMonitoringConfig grafana)) (init 0)).
Proof.
  apply (proj1 (artifact_missing MoreSamples.nullNet
                  (CallGenerateMonitoringConfig grafana) (lit "config") (init 0)
                  (mkResponse 200 JNull) eq_refl eq_refl)).
  left. reflexivity.
Defined.

(** X9 after two submissions. *)
Lemma loading_witness :
  timers (run MoreSamples.twoSubmissions (init 0)) <> [].
Proof.
  apply (loading_means_reply_pending 0 MoreSamples.twoSubmissions).
  reflexivity.
Defined.

(** X10 after two submissions: two timeouts bring two replies. *)
Lemma drain_witness :
  let w := run MoreSamples.twoSubmissions (init 0) in
  let clocks := [(1020, 1020); (1040, 1040)] in
  timers (run (timeouts clocks) w) = []
  /\ (clocks <> [] -> isLoading (run (timeouts clocks) w) = false)
  /\ exists replies,
       messages (run (timeouts clocks) w) = messages w ++ replies
       /\ List.length replies = 2%nat
       /\ Forall (fun m => sender m = bot /\ text m = demoReply) replies.
Proof.
  apply (pending_replies_drain [(1020, 1020); (1040, 1040)]
           (run MoreSamples.twoSubmissions (init 0))).
  reflexivity.
Defined.

(** X11 after two submissions. *)
Lemma indicator_witness :
  isLoading (run (timeouts [(1020, 1020); (1040, 1040)])
               (run MoreSamples.twoSubmissions (init 0))) = false.
Proof.
  apply (indicator_always_clears 0 MoreSamples.twoSubmissions
           [(1020, 1020); (1040, 1040)]).
  reflexivity.
Defined.

(** X16 at the end of the tour. *)
Lemma one_pane_witness :
  exists p tab,
    View.renderedPanes (run MoreSamples.tour (init 0)) = [p]
    /\ View.activeButtons (run MoreSamples.tour (init 0)) = [tab]
    /\ View.paneTab p = activeTab (run MoreSamples.tour (init 0))
    /\ tab_id tab = activeTab (run MoreSamples.tour (init 0)).
Proof.
  apply (one_pane_is_rendered 0 MoreSamples.tour).
  unfold clicksOnScreen, MoreSamples.tour.
  repeat (constructor; [simpl; tauto|]). constructor.
Defined.

(** X17 at the tour. *)
Lemma message_ids_witness :
  NoDup (map id (messages (run MoreSamples.tour (init 0)))).
Proof.
  apply (message_ids_distinct 0 MoreSamples.tour). reflexivity.
Defined.

(** The spacing of X17 is needed: a reply that arrives at millisecond
    1020 gets the id [1021], and so does a message appended at millisecond
    1021. *)
Lemma ids_collide_one_millisecond_apart :
  let trace := [(10, 10, ChangeInputText (lit "a"));
                (20, 20, Samples.enter);
                (1000, 1000, ChangeRepoUrl (lit "https://github.com/org/repo"));
                (1020, 1020, Timeout);
                (1021, 1021, ClickConnect)] in
  map id (messages (run trace (init 0)))
  = [lit "1"; lit "20"; lit "1021"; lit "1021"].
Proof. reflexivity. Qed.

(** X19 at an empty selection. *)
Lemma file_handler_witness :
  handleFileUpload (Some []) (init 0) = init 0.
Proof.
  apply (proj2 (file_handler_idle_iff_no_file (Some []) (init 0))).
  right. reflexivity.
Defined.

End MoreWitnesses.
